(** * dyson_local: entry lifecycle, platform selection and the entity bridge

    A shallow embedding of [custom_components/dyson_local/__init__.py].
    The Home Assistant object [hass] and the device library are external;
    what the module does to them is modelled as a state-and-exception monad
    over the part of [hass] the module touches, together with a log of the
    calls it makes on its collaborators. *)

From stdpp Require Import gmap strings list fin_maps.


(** ** Collaborators' data *)

(** The device library's classes.  The module distinguishes exactly one of
    them, through [isinstance(device, Dyson360Eye)]. *)
Inductive DeviceClass := Dyson360Eye | DysonFanDevice.

(** [libdyson.MessageType]. *)
Inductive MessageType := STATE | ENVIRONMENTAL.

#[global] Instance DeviceClass_eq_dec : EqDecision DeviceClass.
Proof. solve_decision. Defined.

#[global] Instance MessageType_eq_dec : EqDecision MessageType.
Proof. solve_decision. Defined.

(** A device handle: the object [get_device] returns. *)
Record DysonDevice := {
  device_class : DeviceClass;
  serial : string;
  credential : string;
  device_type : string;
}.

#[global] Instance DysonDevice_eq_dec : EqDecision DysonDevice.
Proof. solve_decision. Defined.

(** [entry.data], with the keys the module reads: [CONF_SERIAL],
    [CONF_CREDENTIAL], [CONF_DEVICE_TYPE] by subscript and [CONF_HOST] by
    [.get], which yields [None] when the key is missing. *)
Record EntryData := {
  conf_serial : string;
  conf_credential : string;
  conf_device_type : string;
  conf_host : option string;
}.

Record ConfigEntry := {
  entry_id : string;
  data : EntryData;
}.

#[global] Instance EntryData_eq_dec : EqDecision EntryData.
Proof. solve_decision. Defined.

#[global] Instance ConfigEntry_eq_dec : EqDecision ConfigEntry.
Proof. solve_decision. Defined.

(** The closure [setup_entry] that is handed to the discovery service: it
    captures the entry and the device of the [async_setup_entry] call that
    made it. *)
Record Callback := SetupEntryCallback {
  cb_entry : ConfigEntry;
  cb_device : DysonDevice;
}.

(** A [DysonDiscovery] object, known by its identity. *)
Definition DysonDiscovery := nat.

(** ** The entity base class *)

Record DysonEntity := {
  _MESSAGE_TYPE : option MessageType;
  _device : DysonDevice;
  _name : string;
}.

(** [DysonEntity.__init__] on a subclass whose class attribute
    [_MESSAGE_TYPE] is [filter] ([None] in the base class). *)
Definition DysonEntity_init (filter : option MessageType)
    (device : DysonDevice) (name : string) : DysonEntity :=
  {| _MESSAGE_TYPE := filter; _device := device; _name := name |}.

Definition should_poll (self : DysonEntity) : bool := false.

Definition name (self : DysonEntity) : string := _name self.

Definition unique_id (self : DysonEntity) : string := serial (_device self).

(** ** Calls on the collaborators

    A config entry is named in a call by its [entry_id], which is how the
    host platform tells entries apart. *)

Inductive Event :=
  | Connect (device : DysonDevice) (host : string)
  | Disconnect (device : DysonDevice)
  | LogError (device_serial host : string)
  | ForwardEntrySetup (entry component : string)
  | ForwardEntryUnload (entry component : string)
  | NewDiscovery (discovery : DysonDiscovery)
  | StartDiscovery (discovery : DysonDiscovery)
  | ListenOnceStop (discovery : DysonDiscovery)
  | RegisterDevice (discovery : DysonDiscovery) (device : DysonDevice)
      (callback : Callback)
  | AddMessageListener (device : DysonDevice) (listener : DysonEntity)
  | ScheduleUpdateHaState (entity : DysonEntity).

(** A logged call carries the device mapping as it was when the call was
    made. *)
Record Call := {
  call_event : Event;
  call_devices : gmap string DysonDevice;
}.

(** ** The state: [hass.data[DOMAIN]] and the log *)

Record HomeAssistant := {
  data_devices : gmap string DysonDevice;
  data_discovery : option DysonDiscovery;
  next_object : nat;
  calls : list Call;
}.

Inductive exn :=
  | ConfigEntryNotReady
  | DysonException
  | KeyError (key : string)
  | OtherException.

#[global] Instance exn_eq_dec : EqDecision exn.
Proof. solve_decision. Defined.

Inductive result (A : Type) :=
  | Ok (a : A)
  | Raise (e : exn).

Arguments Ok {A} a.
Arguments Raise {A} e.

Definition M (A : Type) : Type := HomeAssistant -> result A * HomeAssistant.

Definition ret {A} (a : A) : M A := fun hass => (Ok a, hass).

Definition raise {A} (e : exn) : M A := fun hass => (Raise e, hass).

Definition bind {A B} (m : M A) (f : A -> M B) : M B :=
  fun hass =>
    match m hass with
    | (Ok a, hass') => f a hass'
    | (Raise e, hass') => (Raise e, hass')
    end.

(** What a collaborator's call came back with: a value or an exception. *)
Definition returned {A} (r : result A) : M A := fun hass => (r, hass).

#[global] Instance M_ret : MRet M := @ret.

#[global] Instance M_bind : MBind M := fun A B f m => bind m f.

Definition logged (ev : Event) (devices : gmap string DysonDevice) : Call :=
  {| call_event := ev; call_devices := devices |}.

Definition add_calls (cs : list Call) (hass : HomeAssistant) : HomeAssistant :=
  {| data_devices := data_devices hass;
     data_discovery := data_discovery hass;
     next_object := next_object hass;
     calls := calls hass ++ cs |}.

(** Log one call on a collaborator. *)
Definition call (ev : Event) : M unit :=
  fun hass => (Ok tt, add_calls [logged ev (data_devices hass)] hass).

(** [hass.data[DOMAIN][DATA_DEVICES][key]]. *)
Definition get_device_item (key : string) : M DysonDevice :=
  fun hass =>
    match data_devices hass !! key with
    | Some device => (Ok device, hass)
    | None => (Raise (KeyError key), hass)
    end.

(** [hass.data[DOMAIN][DATA_DEVICES][key] = device]. *)
Definition set_device_item (key : string) (device : DysonDevice) : M unit :=
  fun hass =>
    (Ok tt,
     {| data_devices := <[key := device]> (data_devices hass);
        data_discovery := data_discovery hass;
        next_object := next_object hass;
        calls := calls hass |}).

(** [hass.data[DOMAIN][DATA_DEVICES].pop(key)]. *)
Definition pop_device_item (key : string) : M DysonDevice :=
  fun hass =>
    match data_devices hass !! key with
    | Some device =>
        (Ok device,
         {| data_devices := delete key (data_devices hass);
            data_discovery := data_discovery hass;
            next_object := next_object hass;
            calls := calls hass |})
    | None => (Raise (KeyError key), hass)
    end.

Definition get_discovery : M (option DysonDiscovery) :=
  fun hass => (Ok (data_discovery hass), hass).

Definition set_discovery (discovery : DysonDiscovery) : M unit :=
  fun hass =>
    (Ok tt,
     {| data_devices := data_devices hass;
        data_discovery := Some discovery;
        next_object := next_object hass;
        calls := calls hass |}).

(** [DysonDiscovery()]: a new object. *)
Definition new_discovery : M DysonDiscovery :=
  fun hass =>
    let discovery := next_object hass in
    (Ok discovery,
     {| data_devices := data_devices hass;
        data_discovery := data_discovery hass;
        next_object := S discovery;
        calls := calls hass ++
                 [logged (NewDiscovery discovery) (data_devices hass)] |}).

Fixpoint for_each {A} (xs : list A) (body : A -> M unit) : M unit :=
  match xs with
  | [] => ret tt
  | x :: xs' => body x ;; for_each xs' body
  end.

Fixpoint gather {A B} (xs : list A) (body : A -> M B) : M (list B) :=
  match xs with
  | [] => ret []
  | x :: xs' => r ← body x; rs ← gather xs' body; ret (r :: rs)
  end.

(** Python's [all] on a list of booleans. *)
Definition all (bs : list bool) : bool := forallb (fun b => b) bs.

(** ** The module *)

(** [async_setup]: a fresh [hass.data[DOMAIN]]. *)
Definition async_setup (hass : HomeAssistant) : bool * HomeAssistant :=
  (true,
   {| data_devices := ∅;
      data_discovery := None;
      next_object := next_object hass;
      calls := calls hass |}).

Definition _async_get_platform (device : DysonDevice) : list string :=
  match device_class device with
  | Dyson360Eye => ["binary_sensor"; "sensor"; "vacuum"]
  | _ => ["fan"; "sensor"]
  end.

(** The truth value Python gives [entry.data.get(CONF_HOST)]: the host when
    it is a non-empty string, nothing when it is [None] or empty. *)
Definition truthy_host (host : option string) : option string :=
  match host with
  | Some "" => None
  | Some h => Some h
  | None => None
  end.

Section Lifecycle.

(** The device library and the host platform, as the module sees them:
    the factory, what [connect] does for a device and a host, and what
    unloading one platform of an entry returns. *)
Variable get_device : string -> string -> string -> DysonDevice.
Variable connect : DysonDevice -> string -> result unit.
Variable async_forward_entry_unload : ConfigEntry -> string -> bool.

Definition device_connect (device : DysonDevice) (host : string) : M unit :=
  call (Connect device host) ;;
  returned (connect device host).

Definition _async_forward_entry_setup (entry : ConfigEntry)
    (device : DysonDevice) : M unit :=
  for_each (_async_get_platform device)
    (fun component => call (ForwardEntrySetup (entry_id entry) component)).

Definition setup_entry (entry : ConfigEntry) (device : DysonDevice)
    (host : string) (is_discovery : bool) : M unit :=
  fun hass =>
    match device_connect device host hass with
    | (Raise DysonException, hass') =>
        if is_discovery
        then call (LogError (serial device) host) hass'
        else raise ConfigEntryNotReady hass'
    | (Raise e, hass') => (Raise e, hass')
    | (Ok _, hass') =>
        (set_device_item (entry_id entry) device ;;
         _async_forward_entry_setup entry device) hass'
    end.

(** A discovered host reaches the registered callback with
    [is_discovery] at its default. *)
Definition invoke (cb : Callback) (host : string) : M unit :=
  setup_entry (cb_entry cb) (cb_device cb) host true.

Definition async_setup_entry (entry : ConfigEntry) : M bool :=
  let device :=
    get_device (conf_serial (data entry)) (conf_credential (data entry))
      (conf_device_type (data entry)) in
  match truthy_host (conf_host (data entry)) with
  | Some host => setup_entry entry device host false
  | None =>
      stored ← get_discovery;
      discovery ←
        match stored with
        | None =>
            discovery ← new_discovery;
            set_discovery discovery ;;
            call (StartDiscovery discovery) ;;
            call (ListenOnceStop discovery) ;;
            ret discovery
        | Some discovery => ret discovery
        end;
      call (RegisterDevice discovery device
              (SetupEntryCallback entry device))
  end ;;
  ret true.

Definition async_unload_entry (entry : ConfigEntry) : M bool :=
  device ← get_device_item (entry_id entry);
  results ←
    gather (_async_get_platform device)
      (fun component =>
         call (ForwardEntryUnload (entry_id entry) component) ;;
         ret (async_forward_entry_unload entry component));
  let ok := all results in
  (if ok
   then pop_device_item (entry_id entry) ;;
        call (Disconnect device)
   else ret tt) ;;
  ret ok.

End Lifecycle.

(** ** The entity bridge *)

Definition async_added_to_hass (self : DysonEntity) : M unit :=
  call (AddMessageListener (_device self) self).

Definition _on_message (self : DysonEntity) (message_type : MessageType)
    : M unit :=
  match _MESSAGE_TYPE self with
  | None => call (ScheduleUpdateHaState self)
  | Some filter =>
      if decide (message_type = filter)
      then call (ScheduleUpdateHaState self)
      else ret tt
  end.


(** ** Vocabulary of the properties *)

(** The state after one more [schedule_update_ha_state] of [self]. *)
Definition refresh_requested (self : DysonEntity) (hass : HomeAssistant)
    : HomeAssistant :=
  add_calls [logged (ScheduleUpdateHaState self) (data_devices hass)] hass.

(** The calls logged on the way from [hass] to [hass']. *)
Definition new_calls (hass hass' : HomeAssistant) : list Call :=
  drop (length (calls hass)) (calls hass').

Definition is_forward_entry_setup (ev : Event) : bool :=
  match ev with ForwardEntrySetup _ _ => true | _ => false end.

Definition is_connect (ev : Event) : bool :=
  match ev with Connect _ _ => true | _ => false end.

Definition is_disconnect (ev : Event) : bool :=
  match ev with Disconnect _ => true | _ => false end.

Definition is_new_discovery (ev : Event) : bool :=
  match ev with NewDiscovery _ => true | _ => false end.

Definition is_listen_once_stop (ev : Event) : bool :=
  match ev with ListenOnceStop _ => true | _ => false end.

(** The calls that concern the discovery service. *)
Definition is_discovery_event (ev : Event) : bool :=
  match ev with
  | NewDiscovery _ | StartDiscovery _ | ListenOnceStop _
  | RegisterDevice _ _ _ => true
  | _ => false
  end.

(** Registrations are made with the discovery object [discovery] only. *)
Definition registers_with (discovery : DysonDiscovery) (ev : Event) : bool :=
  match ev with
  | RegisterDevice d _ _ => Nat.eqb d discovery
  | _ => true
  end.

Definition count_events (p : Event -> bool) (cs : list Call) : nat :=
  length (List.filter (fun c => p (call_event c)) cs).

(** The entry takes the discovery branch of [async_setup_entry]. *)
Definition host_less (entry : ConfigEntry) : bool :=
  match truthy_host (conf_host (data entry)) with
  | Some _ => false
  | None => true
  end.

(** The same entry, configured with [host]. *)
Definition with_host (entry : ConfigEntry) (host : string) : ConfigEntry :=
  {| entry_id := entry_id entry;
     data := {| conf_serial := conf_serial (data entry);
                conf_credential := conf_credential (data entry);
                conf_device_type := conf_device_type (data entry);
                conf_host := Some host |} |}.

Section Runs.

Variable get_device : string -> string -> string -> DysonDevice.
Variable connect : DysonDevice -> string -> result unit.

(** The device [async_setup_entry] builds for an entry. *)
Definition entry_device (entry : ConfigEntry) : DysonDevice :=
  get_device (conf_serial (data entry)) (conf_credential (data entry))
    (conf_device_type (data entry)).

(** Setting up a sequence of entries, one after the other; an entry whose
    setup raises leaves the state it reached. *)
Fixpoint run_setups (entries : list ConfigEntry) (hass : HomeAssistant)
    : HomeAssistant :=
  match entries with
  | [] => hass
  | entry :: rest =>
      run_setups rest (snd (async_setup_entry get_device connect entry hass))
  end.

End Runs.

(** The two phases of the discovery singleton, for a log that started at
    [base] and a discovery object [discovery]. *)
Definition quiet (cs : list Call) : Prop :=
  Forall (fun c => is_discovery_event (call_event c) = false) cs.

Definition no_discovery_yet (base : list Call) (discovery : DysonDiscovery)
    (hass : HomeAssistant) : Prop :=
  data_discovery hass = None /\
  next_object hass = discovery /\
  exists cs, calls hass = base ++ cs /\ quiet cs.

Definition discovery_running (base : list Call) (discovery : DysonDiscovery)
    (hass : HomeAssistant) : Prop :=
  data_discovery hass = Some discovery /\
  exists cs,
    calls hass = base ++ cs /\
    count_events is_new_discovery cs = 1 /\
    count_events is_listen_once_stop cs = 1 /\
    Forall (fun c => registers_with discovery (call_event c) = true) cs.

(** ** A sample installation

    One vacuum and one fan, a network on which only [192.168.1.20] answers,
    and a host platform on which unloading the [fan] platform of the entry
    [stuck] fails. *)

Definition sample_get_device (serial credential device_type : string)
    : DysonDevice :=
  {| device_class :=
       if String.eqb device_type "N223" then Dyson360Eye else DysonFanDevice;
     serial := serial;
     credential := credential;
     device_type := device_type |}.

Definition sample_connect (device : DysonDevice) (host : string)
    : result unit :=
  if String.eqb host "192.168.1.20" then Ok tt else Raise DysonException.

Definition sample_unload (entry : ConfigEntry) (component : string) : bool :=
  negb (String.eqb (entry_id entry) "stuck" && String.eqb component "fan").

Definition sample_entry (id device_type : string) (host : option string)
    : ConfigEntry :=
  {| entry_id := id;
     data := {| conf_serial := "AB1-EU-CDE2345F";
                conf_credential := "secret";
                conf_device_type := device_type;
                conf_host := host |} |}.

Definition sample_vacuum : DysonDevice :=
  sample_get_device "AB1-EU-CDE2345F" "secret" "N223".

Definition sample_fan : DysonDevice :=
  sample_get_device "AB1-EU-CDE2345F" "secret" "438".

Definition plain_entity : DysonEntity :=
  DysonEntity_init None sample_fan "Fan".

Definition humidity_entity : DysonEntity :=
  DysonEntity_init (Some ENVIRONMENTAL) sample_fan "Humidity".

Definition fresh_hass : HomeAssistant :=
  {| data_devices := ∅; data_discovery := None; next_object := 0;
     calls := [] |}.

(** [hass] with one device stored, under [id]. *)
Definition hass_with (id : string) (device : DysonDevice) : HomeAssistant :=
  {| data_devices := {[ id := device ]}; data_discovery := None;
     next_object := 0; calls := [] |}.

(** A fan with a reachable host, a vacuum to be discovered, a fan whose
    stored host is empty. *)
Definition sample_entries : list ConfigEntry :=
  [sample_entry "fan" "438" (Some "192.168.1.20");
   sample_entry "robot" "N223" None;
   sample_entry "spare" "438" (Some "")].

(** ** The rest of the entity base class *)



(** The device's messages reaching the listener of one entity, one after
    the other. *)
Definition on_messages (self : DysonEntity) (message_types : list MessageType)
    : M unit :=
  for_each message_types (_on_message self).

(** ** Further vocabulary *)

Definition is_schedule_update (ev : Event) : bool :=
  match ev with ScheduleUpdateHaState _ => true | _ => false end.

Definition is_forward_entry_unload (ev : Event) : bool :=
  match ev with ForwardEntryUnload _ _ => true | _ => false end.

(** The callbacks handed to the discovery service, in the order of the
    log. *)
Definition registrations (cs : list Call) : list Callback :=
  omap (fun c =>
          match call_event c with
          | RegisterDevice _ _ callback => Some callback
          | _ => None
          end) cs.

(** A network on which [connect] fails outside the device library's own
    error type. *)
Definition broken_connect (device : DysonDevice) (host : string)
    : result unit :=
  Raise OtherException.

(** ** Platform selection *)

(** C4. The platform selector is a total function of the device alone; it
    yields [binary_sensor; sensor; vacuum], in that order, for a
    [Dyson360Eye] and [fan; sensor], in that order, for every other device,
    so two devices of the same class get the same list. *)
Theorem platform_selector_by_class (device other : DysonDevice) :
  (device_class device = Dyson360Eye ->
   _async_get_platform device = ["binary_sensor"; "sensor"; "vacuum"]) /\
  (device_class device <> Dyson360Eye ->
   _async_get_platform device = ["fan"; "sensor"]) /\
  (device_class device = device_class other ->
   _async_get_platform device = _async_get_platform other).
Proof.
  unfold _async_get_platform.
  repeat split.
  - intros ->. reflexivity.
  - destruct (device_class device); [congruence | reflexivity].
  - intros ->. reflexivity.
Qed.

Lemma platform_selector_by_class_witness :
  _async_get_platform sample_vacuum = ["binary_sensor"; "sensor"; "vacuum"] /\
  _async_get_platform sample_fan = ["fan"; "sensor"] /\
  _async_get_platform sample_fan =
    _async_get_platform (sample_get_device "XY9" "other" "527").
Proof.
  split; [| split].
  - apply (proj1 (platform_selector_by_class sample_vacuum sample_vacuum)).
    reflexivity.
  - apply (proj1 (proj2 (platform_selector_by_class sample_fan sample_fan))).
    discriminate.
  - apply (proj2 (proj2 (platform_selector_by_class sample_fan
                           (sample_get_device "XY9" "other" "527")))).
    reflexivity.
Defined.

(** ** The entity bridge *)

(** C7. An entity without a message-type filter requests a refresh on every
    message; an entity with a filter requests one when the message's type is
    the filter and otherwise leaves everything as it was. *)
Theorem on_message_filter (self : DysonEntity) (message_type : MessageType)
    (hass : HomeAssistant) :
  (_MESSAGE_TYPE self = None ->
   _on_message self message_type hass = (Ok tt, refresh_requested self hass)) /\
  (forall filter, _MESSAGE_TYPE self = Some filter ->
     (message_type = filter ->
      _on_message self message_type hass =
        (Ok tt, refresh_requested self hass)) /\
     (message_type <> filter ->
      _on_message self message_type hass = (Ok tt, hass))).
Proof.
  unfold _on_message, refresh_requested. split.
  - intros ->. reflexivity.
  - intros filter ->. split; intros Hmt.
    + rewrite decide_True by exact Hmt. reflexivity.
    + rewrite decide_False by exact Hmt. reflexivity.
Qed.

Lemma on_message_filter_witness :
  calls (snd (_on_message plain_entity STATE fresh_hass)) =
    [logged (ScheduleUpdateHaState plain_entity) ∅] /\
  calls (snd (_on_message humidity_entity ENVIRONMENTAL fresh_hass)) =
    [logged (ScheduleUpdateHaState humidity_entity) ∅] /\
  calls (snd (_on_message humidity_entity STATE fresh_hass)) = [].
Proof.
  split; [| split].
  - rewrite (proj1 (on_message_filter plain_entity STATE fresh_hass));
      reflexivity.
  - rewrite (proj1 (proj2 (on_message_filter humidity_entity ENVIRONMENTAL
                             fresh_hass) ENVIRONMENTAL eq_refl));
      reflexivity.
  - rewrite (proj2 (proj2 (on_message_filter humidity_entity STATE fresh_hass)
                      ENVIRONMENTAL eq_refl));
      [reflexivity | discriminate].
Defined.

(** C10. The unique identifier of an entity is the serial of its device and
    nothing else: entities built over one device, whatever their names and
    filters, have the same identifier. *)
Theorem unique_id_is_device_serial (device : DysonDevice)
    (name1 name2 : string) (filter1 filter2 : option MessageType) :
  unique_id (DysonEntity_init filter1 device name1) = serial device /\
  unique_id (DysonEntity_init filter1 device name1) =
    unique_id (DysonEntity_init filter2 device name2).
Proof. split; reflexivity. Qed.

(** ** The entry lifecycle *)

Lemma add_calls_nil (hass : HomeAssistant) : add_calls [] hass = hass.
Proof. destruct hass. unfold add_calls. cbn. by rewrite app_nil_r. Qed.

Lemma add_calls_add_calls (cs1 cs2 : list Call) (hass : HomeAssistant) :
  add_calls cs2 (add_calls cs1 hass) = add_calls (cs1 ++ cs2) hass.
Proof. unfold add_calls. cbn. by rewrite app_assoc. Qed.

Lemma new_calls_add_calls (cs : list Call) (hass : HomeAssistant) :
  new_calls hass (add_calls cs hass) = cs.
Proof. unfold new_calls, add_calls. cbn. apply drop_app_length. Qed.

(** A loop of logged calls logs them in the order of the list and touches
    nothing else. *)
Lemma for_each_call {A} (event_of : A -> Event) (xs : list A)
    (hass : HomeAssistant) :
  for_each xs (fun x => call (event_of x)) hass =
    (Ok tt,
     add_calls (map (fun x => logged (event_of x) (data_devices hass)) xs)
       hass).
Proof.
  revert hass. induction xs as [| x xs IH]; intros hass; cbn.
  - by rewrite add_calls_nil.
  - unfold mbind, M_bind, bind. cbn. rewrite IH.
    by rewrite add_calls_add_calls.
Qed.

Lemma count_events_app (p : Event -> bool) (cs1 cs2 : list Call) :
  count_events p (cs1 ++ cs2) = count_events p cs1 + count_events p cs2.
Proof.
  unfold count_events. by rewrite List.filter_app, length_app.
Qed.

Lemma count_events_map_none {A} (p : Event -> bool) (event_of : A -> Event)
    (devices : gmap string DysonDevice) (xs : list A) :
  (forall x, p (event_of x) = false) ->
  count_events p (map (fun x => logged (event_of x) devices) xs) = 0.
Proof.
  intros Hnone. unfold count_events.
  induction xs as [| x xs IH]; cbn; [reflexivity |].
  by rewrite Hnone.
Qed.

Lemma truthy_host_nonempty (host : string) :
  host <> "" -> truthy_host (Some host) = Some host.
Proof. destruct host; [congruence | reflexivity]. Qed.

Section LifecycleProperties.

Variable get_device : string -> string -> string -> DysonDevice.
Variable connect : DysonDevice -> string -> result unit.
Variable async_forward_entry_unload : ConfigEntry -> string -> bool.

(** What [setup_entry] does once [connect] has returned. *)
Lemma setup_entry_connected (entry : ConfigEntry) (device : DysonDevice)
    (host : string) (is_discovery : bool) (hass : HomeAssistant) :
  connect device host = Ok tt ->
  setup_entry connect entry device host is_discovery hass =
    (Ok tt,
     {| data_devices := <[entry_id entry := device]> (data_devices hass);
        data_discovery := data_discovery hass;
        next_object := next_object hass;
        calls :=
          calls hass ++
          logged (Connect device host) (data_devices hass) ::
          map (fun component =>
                 logged (ForwardEntrySetup (entry_id entry) component)
                   (<[entry_id entry := device]> (data_devices hass)))
            (_async_get_platform device) |}).
Proof.
  intros Hconnect.
  unfold setup_entry, device_connect, returned, mbind, M_bind, bind.
  cbn. rewrite Hconnect.
  unfold _async_forward_entry_setup. rewrite for_each_call.
  unfold add_calls. cbn. by rewrite <- app_assoc.
Qed.

(** What [setup_entry] does once [connect] has raised [DysonException]. *)
Lemma setup_entry_failed (entry : ConfigEntry) (device : DysonDevice)
    (host : string) (is_discovery : bool) (hass : HomeAssistant) :
  connect device host = Raise DysonException ->
  setup_entry connect entry device host is_discovery hass =
    if is_discovery
    then (Ok tt,
          add_calls [logged (Connect device host) (data_devices hass);
                     logged (LogError (serial device) host)
                       (data_devices hass)] hass)
    else (Raise ConfigEntryNotReady,
          add_calls [logged (Connect device host) (data_devices hass)] hass).
Proof.
  intros Hconnect.
  unfold setup_entry, device_connect, returned, mbind, M_bind, bind.
  cbn. rewrite Hconnect.
  destruct is_discovery; cbn; [| reflexivity].
  unfold call. by rewrite add_calls_add_calls.
Qed.

(** C3. Whenever [connect] succeeds, for a configured host as for a
    discovered one, [setup_entry] returns normally, the device is in the
    mapping under the entry's identifier, and the calls made are the
    connect followed by one forward per platform of the selector, in its
    order; every forward is made with the device already in the mapping. *)
Theorem store_before_forward (entry : ConfigEntry) (device : DysonDevice)
    (host : string) (is_discovery : bool) (hass : HomeAssistant) :
  connect device host = Ok tt ->
  exists hass',
    setup_entry connect entry device host is_discovery hass = (Ok tt, hass') /\
    data_devices hass' !! entry_id entry = Some device /\
    calls hass' =
      calls hass ++
      logged (Connect device host) (data_devices hass) ::
      map (fun component =>
             logged (ForwardEntrySetup (entry_id entry) component)
               (data_devices hass'))
        (_async_get_platform device) /\
    Forall (fun c =>
              is_forward_entry_setup (call_event c) = true ->
              call_devices c !! entry_id entry = Some device)
      (new_calls hass hass').
Proof.
  intros Hconnect. eexists. split.
  { apply setup_entry_connected, Hconnect. }
  cbn. split; [apply lookup_insert_eq |]. split; [reflexivity |].
  unfold new_calls. cbn. rewrite drop_app_length.
  constructor; [discriminate |].
  apply Forall_map, Forall_forall. intros component _ _. cbn.
  apply lookup_insert_eq.
Qed.

(** C1. When the entry has a host and [connect] to it raises
    [DysonException], [async_setup_entry] raises [ConfigEntryNotReady];
    the mapping is as it was and the only call made is the connect, so
    nothing was forwarded. *)
Theorem direct_connect_failure_not_ready (entry : ConfigEntry)
    (host : string) (hass : HomeAssistant) :
  conf_host (data entry) = Some host ->
  host <> "" ->
  connect (entry_device get_device entry) host = Raise DysonException ->
  exists hass',
    async_setup_entry get_device connect entry hass =
      (Raise ConfigEntryNotReady, hass') /\
    data_devices hass' = data_devices hass /\
    data_devices hass' !! entry_id entry = data_devices hass !! entry_id entry /\
    calls hass' =
      calls hass ++
      [logged (Connect (entry_device get_device entry) host)
         (data_devices hass)] /\
    count_events is_forward_entry_setup (new_calls hass hass') = 0.
Proof.
  intros Hhost Hne Hconnect. eexists. split.
  { unfold async_setup_entry. rewrite Hhost.
    rewrite (truthy_host_nonempty host Hne).
    unfold mbind, M_bind, bind.
    fold (entry_device get_device entry).
    rewrite (setup_entry_failed entry _ host false hass Hconnect).
    reflexivity. }
  cbn. repeat split.
  unfold new_calls. cbn. by rewrite drop_app_length.
Qed.

(** C5. When the discovery service calls the registered callback with a
    host and [connect] raises [DysonException], the callback returns
    normally; the failure is logged and the mapping is as it was. *)
Theorem discovery_connect_failure_swallowed (cb : Callback) (host : string)
    (hass : HomeAssistant) :
  connect (cb_device cb) host = Raise DysonException ->
  exists hass',
    invoke connect cb host hass = (Ok tt, hass') /\
    data_devices hass' = data_devices hass /\
    data_discovery hass' = data_discovery hass /\
    calls hass' =
      calls hass ++
      [logged (Connect (cb_device cb) host) (data_devices hass);
       logged (LogError (serial (cb_device cb)) host) (data_devices hass)].
Proof.
  intros Hconnect. eexists. split.
  { unfold invoke.
    apply (setup_entry_failed (cb_entry cb) _ host true hass Hconnect). }
  cbn. repeat split.
Qed.

(** The discovery branch of [async_setup_entry] when no discovery object
    is stored yet. *)
Lemma setup_hostless_first (entry : ConfigEntry) (hass : HomeAssistant) :
  host_less entry = true ->
  data_discovery hass = None ->
  async_setup_entry get_device connect entry hass =
    (Ok true,
     {| data_devices := data_devices hass;
        data_discovery := Some (next_object hass);
        next_object := S (next_object hass);
        calls :=
          calls hass ++
          [logged (NewDiscovery (next_object hass)) (data_devices hass);
           logged (StartDiscovery (next_object hass)) (data_devices hass);
           logged (ListenOnceStop (next_object hass)) (data_devices hass);
           logged (RegisterDevice (next_object hass)
                     (entry_device get_device entry)
                     (SetupEntryCallback entry
                        (entry_device get_device entry)))
             (data_devices hass)] |}).
Proof.
  unfold host_less, async_setup_entry. intros Hless Hnone.
  destruct (truthy_host (conf_host (data entry))); [discriminate |].
  unfold mbind, M_bind, bind, get_discovery. rewrite Hnone. cbn.
  unfold add_calls, entry_device. cbn.
  by rewrite <- !app_assoc.
Qed.

(** The discovery branch when a discovery object is stored. *)
Lemma setup_hostless_later (entry : ConfigEntry) (hass : HomeAssistant)
    (discovery : DysonDiscovery) :
  host_less entry = true ->
  data_discovery hass = Some discovery ->
  async_setup_entry get_device connect entry hass =
    (Ok true,
     add_calls
       [logged (RegisterDevice discovery (entry_device get_device entry)
                  (SetupEntryCallback entry (entry_device get_device entry)))
          (data_devices hass)] hass).
Proof.
  unfold host_less, async_setup_entry. intros Hless Hsome.
  destruct (truthy_host (conf_host (data entry))); [discriminate |].
  unfold mbind, M_bind, bind, get_discovery. rewrite Hsome. reflexivity.
Qed.

(** The direct branch. *)
Lemma setup_hosted (entry : ConfigEntry) (host : string)
    (hass : HomeAssistant) :
  truthy_host (conf_host (data entry)) = Some host ->
  async_setup_entry get_device connect entry hass =
    match setup_entry connect entry (entry_device get_device entry) host
            false hass with
    | (Ok _, hass') => (Ok true, hass')
    | (Raise e, hass') => (Raise e, hass')
    end.
Proof.
  unfold async_setup_entry. intros ->. reflexivity.
Qed.

(** C6. An entry without a host is set up without any connect: the setup
    returns [True] after registering the device and the [setup_entry]
    closure with the discovery service, and leaves the mapping alone.
    When the registered callback is then called with a host on which
    [connect] succeeds, it does what [setup_entry] does on the direct
    path, and reaches the very state that setting up the same entry
    configured with that host reaches: the device stored under the
    entry's identifier, then one forward per platform of the selector. *)
Theorem hostless_setup_registers (entry : ConfigEntry)
    (hass : HomeAssistant) :
  host_less entry = true ->
  exists discovery hass1,
    async_setup_entry get_device connect entry hass = (Ok true, hass1) /\
    data_devices hass1 = data_devices hass /\
    data_discovery hass1 = Some discovery /\
    count_events is_connect (new_calls hass hass1) = 0 /\
    last (new_calls hass hass1) =
      Some (logged (RegisterDevice discovery (entry_device get_device entry)
                      (SetupEntryCallback entry
                         (entry_device get_device entry)))
              (data_devices hass)) /\
    forall host,
      connect (entry_device get_device entry) host = Ok tt ->
      exists hass2,
        invoke connect
          (SetupEntryCallback entry (entry_device get_device entry))
          host hass1 = (Ok tt, hass2) /\
        setup_entry connect entry (entry_device get_device entry) host
          false hass1 = (Ok tt, hass2) /\
        (host <> "" ->
         async_setup_entry get_device connect (with_host entry host) hass1 =
           (Ok true, hass2)) /\
        data_devices hass2 =
          <[entry_id entry := entry_device get_device entry]>
            (data_devices hass) /\
        new_calls hass1 hass2 =
          logged (Connect (entry_device get_device entry) host)
            (data_devices hass) ::
          map (fun component =>
                 logged (ForwardEntrySetup (entry_id entry) component)
                   (data_devices hass2))
            (_async_get_platform (entry_device get_device entry)).
Proof.
  intros Hless.
  assert (Hcallback : forall hass1 host,
    data_devices hass1 = data_devices hass ->
    connect (entry_device get_device entry) host = Ok tt ->
    exists hass2,
      invoke connect
        (SetupEntryCallback entry (entry_device get_device entry))
        host hass1 = (Ok tt, hass2) /\
      setup_entry connect entry (entry_device get_device entry) host
        false hass1 = (Ok tt, hass2) /\
      (host <> "" ->
       async_setup_entry get_device connect (with_host entry host) hass1 =
         (Ok true, hass2)) /\
      data_devices hass2 =
        <[entry_id entry := entry_device get_device entry]>
          (data_devices hass) /\
      new_calls hass1 hass2 =
        logged (Connect (entry_device get_device entry) host)
          (data_devices hass) ::
        map (fun component =>
               logged (ForwardEntrySetup (entry_id entry) component)
                 (data_devices hass2))
          (_async_get_platform (entry_device get_device entry))).
  { intros hass1 host Hsame Hconnect. eexists. split.
    { unfold invoke. cbn. apply setup_entry_connected, Hconnect. }
    split; [apply setup_entry_connected, Hconnect |].
    split.
    { intros Hne.
      rewrite (setup_hosted (with_host entry host) host hass1)
        by (cbn; apply truthy_host_nonempty, Hne).
      change (entry_device get_device (with_host entry host))
        with (entry_device get_device entry).
      pose proof (setup_entry_connected (with_host entry host)
                    (entry_device get_device entry) host false hass1
                    Hconnect) as Hdirect.
      cbn in Hdirect. rewrite Hdirect. reflexivity. }
    cbn. rewrite Hsame. split; [reflexivity |].
    unfold new_calls. cbn. by rewrite drop_app_length. }
  destruct (data_discovery hass) as [discovery |] eqn:Hstored.
  - exists discovery. eexists. split.
    { apply setup_hostless_later; [exact Hless | exact Hstored]. }
    rewrite new_calls_add_calls. cbn.
    repeat (split; [first [reflexivity | exact Hstored] |]).
    intros host Hconnect. apply Hcallback; [reflexivity | exact Hconnect].
  - exists (next_object hass). eexists. split.
    { apply setup_hostless_first; [exact Hless | exact Hstored]. }
    unfold new_calls. cbn. rewrite drop_app_length. cbn.
    repeat (split; [reflexivity |]).
    intros host Hconnect. apply Hcallback; [reflexivity | exact Hconnect].
Qed.

(** Unloading the platforms: every unload is issued, in the order of the
    list, and the results come back in that order. *)
Lemma gather_unload (entry : ConfigEntry) (components : list string)
    (hass : HomeAssistant) :
  gather components
    (fun component =>
       call (ForwardEntryUnload (entry_id entry) component) ;;
       ret (async_forward_entry_unload entry component)) hass =
    (Ok (map (async_forward_entry_unload entry) components),
     add_calls
       (map (fun component =>
               logged (ForwardEntryUnload (entry_id entry) component)
                 (data_devices hass))
          components) hass).
Proof.
  revert hass. induction components as [| component rest IH]; intros hass.
  - cbn. by rewrite add_calls_nil.
  - cbn. unfold mbind, M_bind, bind. cbn. rewrite IH. cbn.
    by rewrite add_calls_add_calls.
Qed.

Lemma all_map {A} (f : A -> bool) (xs : list A) :
  all (map f xs) = forallb f xs.
Proof.
  unfold all. induction xs as [| x xs IH]; cbn; [reflexivity |].
  by rewrite IH.
Qed.

(** C9. Unloading an entry whose identifier is not in the device mapping
    raises [KeyError] at the lookup; nothing is returned, no unload is
    issued and the state is as it was. *)
Theorem unload_unknown_entry_raises (entry : ConfigEntry)
    (hass : HomeAssistant) :
  data_devices hass !! entry_id entry = None ->
  async_unload_entry async_forward_entry_unload entry hass =
    (Raise (KeyError (entry_id entry)), hass).
Proof.
  intros Habsent.
  unfold async_unload_entry, mbind, M_bind, bind, get_device_item.
  by rewrite Habsent.
Qed.

(** C2. Unloading an entry whose device is in the mapping issues one
    unload per platform of the selector and returns whether all of them
    succeeded.  If they all did, the device is removed from the mapping and
    [disconnect] is called after the removal; if one did not, the mapping
    is as it was and [disconnect] is not called. *)
Theorem unload_all_or_nothing (entry : ConfigEntry) (device : DysonDevice)
    (hass : HomeAssistant) :
  data_devices hass !! entry_id entry = Some device ->
  exists hass',
    async_unload_entry async_forward_entry_unload entry hass =
      (Ok (forallb (async_forward_entry_unload entry)
             (_async_get_platform device)), hass') /\
    (forallb (async_forward_entry_unload entry) (_async_get_platform device)
       = true ->
     data_devices hass' = delete (entry_id entry) (data_devices hass) /\
     data_devices hass' !! entry_id entry = None /\
     calls hass' =
       calls hass ++
       map (fun component =>
              logged (ForwardEntryUnload (entry_id entry) component)
                (data_devices hass))
         (_async_get_platform device) ++
       [logged (Disconnect device) (data_devices hass')]) /\
    (forallb (async_forward_entry_unload entry) (_async_get_platform device)
       = false ->
     data_devices hass' = data_devices hass /\
     count_events is_disconnect (new_calls hass hass') = 0 /\
     calls hass' =
       calls hass ++
       map (fun component =>
              logged (ForwardEntryUnload (entry_id entry) component)
                (data_devices hass))
         (_async_get_platform device)).
Proof.
  intros Hpresent.
  pose proof (gather_unload entry (_async_get_platform device) hass)
    as Hgather.
  unfold async_unload_entry, mbind, M_bind, bind, get_device_item in *.
  rewrite Hpresent, Hgather, all_map.
  destruct (forallb (async_forward_entry_unload entry)
              (_async_get_platform device)) eqn:Hok.
  - unfold pop_device_item. cbn. rewrite Hpresent. cbn.
    eexists. split; [reflexivity |]. cbn. split; [| discriminate].
    intros _. split; [reflexivity |]. split; [apply lookup_delete_eq |].
    by rewrite <- app_assoc.
  - cbn. eexists. split; [reflexivity |]. split; [discriminate |].
    intros _. split; [reflexivity |]. split; [| reflexivity].
    rewrite new_calls_add_calls. by apply count_events_map_none.
Qed.

(** [setup_entry] never touches the discovery service. *)
Lemma setup_entry_quiet (entry : ConfigEntry) (device : DysonDevice)
    (host : string) (is_discovery : bool) (hass : HomeAssistant) :
  exists r hass' cs,
    setup_entry connect entry device host is_discovery hass = (r, hass') /\
    data_discovery hass' = data_discovery hass /\
    next_object hass' = next_object hass /\
    calls hass' = calls hass ++ cs /\
    quiet cs.
Proof.
  destruct (connect device host) as [[] | e] eqn:Hconnect.
  - rewrite (setup_entry_connected entry device host is_discovery hass Hconnect).
    do 3 eexists. split; [reflexivity |]. cbn.
    repeat (split; [reflexivity |]).
    constructor; [reflexivity |].
    apply Forall_map, Forall_forall. by intros.
  - assert (e = DysonException \/ e <> DysonException) as [-> | Hother].
    { destruct (decide (e = DysonException)); [by left | by right]. }
    + rewrite (setup_entry_failed entry device host is_discovery hass Hconnect).
      destruct is_discovery; do 3 eexists; (split; [reflexivity |]); cbn;
        repeat (split; [reflexivity |]); repeat constructor.
    + exists (Raise e),
        (add_calls [logged (Connect device host) (data_devices hass)] hass),
        [logged (Connect device host) (data_devices hass)].
      split.
      { unfold setup_entry, device_connect, returned, mbind, M_bind, bind.
        cbn. rewrite Hconnect. by destruct e. }
      cbn. repeat (split; [reflexivity |]). repeat constructor.
Qed.

Lemma setup_hosted_quiet (entry : ConfigEntry) (hass : HomeAssistant) :
  host_less entry = false ->
  exists cs,
    data_discovery (snd (async_setup_entry get_device connect entry hass)) =
      data_discovery hass /\
    next_object (snd (async_setup_entry get_device connect entry hass)) =
      next_object hass /\
    calls (snd (async_setup_entry get_device connect entry hass)) =
      calls hass ++ cs /\
    quiet cs.
Proof.
  unfold host_less. intros Hhosted.
  destruct (truthy_host (conf_host (data entry))) as [host |] eqn:Hhost;
    [| discriminate].
  rewrite (setup_hosted entry host hass Hhost).
  destruct (setup_entry_quiet entry (entry_device get_device entry) host
              false hass) as (r & hass' & cs & -> & Hd & Hn & Hc & Hq).
  exists cs. by destruct r.
Qed.

Lemma quiet_counts (discovery : DysonDiscovery) (cs : list Call) :
  quiet cs ->
  count_events is_new_discovery cs = 0 /\
  count_events is_listen_once_stop cs = 0 /\
  Forall (fun c => registers_with discovery (call_event c) = true) cs.
Proof.
  unfold quiet, count_events.
  induction 1 as [| c cs Hc _ (IHnew & IHstop & IHreg)]; cbn.
  - split; [reflexivity |]. split; [reflexivity | constructor].
  - destruct (call_event c) eqn:Hev; try discriminate; cbn;
      (split; [exact IHnew |]; split; [exact IHstop |]);
      (constructor; [by rewrite Hev | exact IHreg]).
Qed.

Lemma run_setups_app (before after : list ConfigEntry)
    (hass : HomeAssistant) :
  run_setups get_device connect (before ++ after) hass =
    run_setups get_device connect after
      (run_setups get_device connect before hass).
Proof.
  revert hass. induction before as [| entry before IH]; intros hass;
    [reflexivity |].
  cbn. apply IH.
Qed.

(** Once the discovery object is stored, no setup makes another or
    registers another hook, and every registration goes to it. *)
Lemma run_setups_running (base : list Call) (discovery : DysonDiscovery)
    (entries : list ConfigEntry) (hass : HomeAssistant) :
  discovery_running base discovery hass ->
  discovery_running base discovery
    (run_setups get_device connect entries hass).
Proof.
  revert hass. induction entries as [| entry entries IH]; intros hass Hrun;
    [exact Hrun |].
  cbn. apply IH.
  destruct Hrun as (Hstored & cs & Hcalls & Hnew & Hstop & Hreg).
  destruct (host_less entry) eqn:Hless.
  - rewrite (setup_hostless_later entry hass discovery Hless Hstored).
    unfold discovery_running. cbn.
    split; [exact Hstored |].
    eexists. split; [by rewrite Hcalls, <- app_assoc |].
    rewrite !count_events_app, Hnew, Hstop.
    split; [reflexivity |]. split; [reflexivity |].
    apply Forall_app. split; [exact Hreg |].
    constructor; [| constructor]. cbn. apply Nat.eqb_refl.
  - destruct (setup_hosted_quiet entry hass Hless)
      as (cs' & Hsame & _ & Hmore & Hquiet).
    destruct (quiet_counts discovery cs' Hquiet) as (Hnew' & Hstop' & Hreg').
    unfold discovery_running. rewrite Hsame, Hmore.
    split; [exact Hstored |].
    exists (cs ++ cs'). split; [by rewrite Hcalls, <- app_assoc |].
    rewrite !count_events_app, Hnew, Hstop, Hnew', Hstop'.
    split; [reflexivity |]. split; [reflexivity |].
    apply Forall_app. by split.
Qed.

(** Until a host-less entry is set up there is no discovery object; the
    first host-less setup makes it. *)
Lemma run_setups_from_none (base : list Call) (discovery : DysonDiscovery)
    (entries : list ConfigEntry) (hass : HomeAssistant) :
  no_discovery_yet base discovery hass ->
  if existsb host_less entries
  then discovery_running base discovery
         (run_setups get_device connect entries hass)
  else no_discovery_yet base discovery
         (run_setups get_device connect entries hass).
Proof.
  revert hass. induction entries as [| entry entries IH]; intros hass Hnone;
    [exact Hnone |].
  cbn. destruct Hnone as (Hstored & Hnext & cs & Hcalls & Hquiet).
  destruct (quiet_counts discovery cs Hquiet) as (Hnew & Hstop & Hreg).
  destruct (host_less entry) eqn:Hless; cbn.
  - apply run_setups_running.
    rewrite (setup_hostless_first entry hass Hless Hstored), Hnext.
    unfold discovery_running. cbn.
    split; [reflexivity |].
    eexists. split; [by rewrite Hcalls, <- app_assoc |].
    rewrite !count_events_app, Hnew, Hstop.
    split; [reflexivity |]. split; [reflexivity |].
    apply Forall_app. split; [exact Hreg |].
    repeat (constructor; [reflexivity |]).
    constructor; [| constructor]. cbn. apply Nat.eqb_refl.
  - apply IH.
    destruct (setup_hosted_quiet entry hass Hless)
      as (cs' & Hsame & Hobject & Hmore & Hquiet').
    unfold no_discovery_yet. rewrite Hsame, Hobject, Hmore.
    split; [exact Hstored |]. split; [exact Hnext |].
    exists (cs ++ cs'). split; [by rewrite Hcalls, <- app_assoc |].
    apply Forall_app. by split.
Qed.

(** C8. From [async_setup] on, over any sequence of entry setups: the
    discovery object is constructed once if some entry is host-less and
    never otherwise; the stop hook is registered as often as the object is
    constructed; every registration goes to that one object, which stays
    stored; and the construction, the start and the hook all happen in the
    first host-less setup, just before its registration. *)
Theorem discovery_created_once (hass0 : HomeAssistant)
    (entries : list ConfigEntry) :
  count_events is_new_discovery
    (new_calls (snd (async_setup hass0))
       (run_setups get_device connect entries (snd (async_setup hass0)))) =
    (if existsb host_less entries then 1 else 0) /\
  count_events is_listen_once_stop
    (new_calls (snd (async_setup hass0))
       (run_setups get_device connect entries (snd (async_setup hass0)))) =
    (if existsb host_less entries then 1 else 0) /\
  Forall (fun c => registers_with (next_object hass0) (call_event c) = true)
    (new_calls (snd (async_setup hass0))
       (run_setups get_device connect entries (snd (async_setup hass0)))) /\
  (existsb host_less entries = true ->
   data_discovery
     (run_setups get_device connect entries (snd (async_setup hass0))) =
     Some (next_object hass0)) /\
  (forall before entry after,
     entries = before ++ entry :: after ->
     existsb host_less before = false ->
     host_less entry = true ->
     new_calls
       (run_setups get_device connect before (snd (async_setup hass0)))
       (run_setups get_device connect (before ++ [entry])
          (snd (async_setup hass0))) =
       map (fun ev =>
              logged ev
                (data_devices
                   (run_setups get_device connect before
                      (snd (async_setup hass0)))))
         [NewDiscovery (next_object hass0);
          StartDiscovery (next_object hass0);
          ListenOnceStop (next_object hass0);
          RegisterDevice (next_object hass0) (entry_device get_device entry)
            (SetupEntryCallback entry (entry_device get_device entry))]).
Proof.
  assert (Hstart : no_discovery_yet (calls hass0) (next_object hass0)
                     (snd (async_setup hass0))).
  { cbn. repeat split. exists []. split; [by rewrite app_nil_r | constructor]. }
  pose proof (run_setups_from_none _ _ entries _ Hstart) as Hrun.
  assert (Hcounts :
    count_events is_new_discovery
      (new_calls (snd (async_setup hass0))
         (run_setups get_device connect entries (snd (async_setup hass0)))) =
      (if existsb host_less entries then 1 else 0) /\
    count_events is_listen_once_stop
      (new_calls (snd (async_setup hass0))
         (run_setups get_device connect entries (snd (async_setup hass0)))) =
      (if existsb host_less entries then 1 else 0) /\
    Forall (fun c => registers_with (next_object hass0) (call_event c) = true)
      (new_calls (snd (async_setup hass0))
         (run_setups get_device connect entries (snd (async_setup hass0))))).
  { unfold new_calls.
    change (calls (snd (async_setup hass0))) with (calls hass0).
    destruct (existsb host_less entries).
    - destruct Hrun as (_ & cs & -> & Hnew & Hstop & Hreg).
      rewrite drop_app_length. by repeat split.
    - destruct Hrun as (_ & _ & cs & -> & Hquiet).
      rewrite drop_app_length.
      by apply quiet_counts. }
  destruct Hcounts as (Hnew & Hstop & Hreg).
  repeat (split; [assumption |]). split.
  - intros Hsome. rewrite Hsome in Hrun. apply Hrun.
  - intros before entry after _ Hbefore Hless.
    pose proof (run_setups_from_none _ _ before _ Hstart) as Hreached.
    rewrite Hbefore in Hreached.
    destruct Hreached as (Hstored & Hnext & _).
    rewrite run_setups_app. cbn [run_setups].
    rewrite (setup_hostless_first _ _ Hless Hstored), Hnext.
    unfold new_calls. cbn. by rewrite drop_app_length.
Qed.

End LifecycleProperties.

(** ** The properties on the sample installation *)

Lemma store_before_forward_witness :
  sample_connect sample_vacuum "192.168.1.20" = Ok tt /\
  exists hass',
    setup_entry sample_connect (sample_entry "robot" "N223" None)
      sample_vacuum "192.168.1.20" true fresh_hass = (Ok tt, hass') /\
    data_devices hass' !! "robot" = Some sample_vacuum /\
    map call_event (calls hass') =
      [Connect sample_vacuum "192.168.1.20";
       ForwardEntrySetup "robot" "binary_sensor";
       ForwardEntrySetup "robot" "sensor";
       ForwardEntrySetup "robot" "vacuum"].
Proof.
  split; [reflexivity |].
  destruct (store_before_forward sample_connect
              (sample_entry "robot" "N223" None) sample_vacuum
              "192.168.1.20" true fresh_hass eq_refl)
    as (hass' & Hrun & Hstored & Hcalls & _).
  exists hass'. split; [exact Hrun |]. split; [exact Hstored |].
  rewrite Hcalls. reflexivity.
Defined.

Lemma direct_connect_failure_not_ready_witness :
  exists hass',
    async_setup_entry sample_get_device sample_connect
      (sample_entry "fan" "438" (Some "192.168.1.99")) fresh_hass =
      (Raise ConfigEntryNotReady, hass') /\
    data_devices hass' = ∅ /\
    map call_event (calls hass') = [Connect sample_fan "192.168.1.99"].
Proof.
  destruct (direct_connect_failure_not_ready sample_get_device sample_connect
              (sample_entry "fan" "438" (Some "192.168.1.99"))
              "192.168.1.99" fresh_hass eq_refl)
    as (hass' & Hrun & Hdevices & _ & Hcalls & _);
    [discriminate | reflexivity |].
  exists hass'. split; [exact Hrun |]. split; [exact Hdevices |].
  rewrite Hcalls. reflexivity.
Defined.

Lemma discovery_connect_failure_swallowed_witness :
  exists hass',
    invoke sample_connect
      (SetupEntryCallback (sample_entry "fan" "438" None) sample_fan)
      "192.168.1.99" fresh_hass = (Ok tt, hass') /\
    data_devices hass' = ∅ /\
    map call_event (calls hass') =
      [Connect sample_fan "192.168.1.99";
       LogError "AB1-EU-CDE2345F" "192.168.1.99"].
Proof.
  destruct (discovery_connect_failure_swallowed sample_connect
              (SetupEntryCallback (sample_entry "fan" "438" None) sample_fan)
              "192.168.1.99" fresh_hass eq_refl)
    as (hass' & Hrun & Hdevices & _ & Hcalls).
  exists hass'. split; [exact Hrun |]. split; [exact Hdevices |].
  rewrite Hcalls. reflexivity.
Defined.

Lemma hostless_setup_registers_witness :
  exists hass1 hass2,
    async_setup_entry sample_get_device sample_connect
      (sample_entry "fan" "438" None) fresh_hass = (Ok true, hass1) /\
    data_devices hass1 = ∅ /\
    invoke sample_connect
      (SetupEntryCallback (sample_entry "fan" "438" None) sample_fan)
      "192.168.1.20" hass1 = (Ok tt, hass2) /\
    async_setup_entry sample_get_device sample_connect
      (sample_entry "fan" "438" (Some "192.168.1.20")) hass1 =
      (Ok true, hass2) /\
    data_devices hass2 = {[ "fan" := sample_fan ]}.
Proof.
  destruct (hostless_setup_registers sample_get_device sample_connect
              (sample_entry "fan" "438" None) fresh_hass eq_refl)
    as (discovery & hass1 & Hrun & Hdevices & _ & _ & _ & Hcallback).
  destruct (Hcallback "192.168.1.20" eq_refl)
    as (hass2 & Hinvoke & _ & Hdirect & Hstored & _).
  exists hass1, hass2.
  split; [exact Hrun |]. split; [exact Hdevices |].
  split; [exact Hinvoke |]. split; [apply Hdirect; discriminate |].
  rewrite Hstored. reflexivity.
Defined.

(** Unloading after a setup that was not ready, and after a host-less setup
    whose callback has not been called. *)
Lemma unload_unknown_entry_raises_witness :
  fst (async_unload_entry sample_unload
         (sample_entry "fan" "438" (Some "192.168.1.99"))
         (snd (async_setup_entry sample_get_device sample_connect
                 (sample_entry "fan" "438" (Some "192.168.1.99"))
                 fresh_hass))) = Raise (KeyError "fan") /\
  fst (async_unload_entry sample_unload (sample_entry "robot" "N223" None)
         (snd (async_setup_entry sample_get_device sample_connect
                 (sample_entry "robot" "N223" None) fresh_hass))) =
    Raise (KeyError "robot").
Proof.
  split.
  - rewrite (unload_unknown_entry_raises sample_unload
               (sample_entry "fan" "438" (Some "192.168.1.99"))
               (snd (async_setup_entry sample_get_device sample_connect
                       (sample_entry "fan" "438" (Some "192.168.1.99"))
                       fresh_hass)) eq_refl).
    reflexivity.
  - rewrite (unload_unknown_entry_raises sample_unload
               (sample_entry "robot" "N223" None)
               (snd (async_setup_entry sample_get_device sample_connect
                       (sample_entry "robot" "N223" None) fresh_hass))
               eq_refl).
    reflexivity.
Defined.

Lemma unload_all_or_nothing_witness :
  exists done kept,
    async_unload_entry sample_unload (sample_entry "fan" "438" None)
      (hass_with "fan" sample_fan) = (Ok true, done) /\
    data_devices done !! "fan" = None /\
    map call_event (calls done) =
      [ForwardEntryUnload "fan" "fan"; ForwardEntryUnload "fan" "sensor";
       Disconnect sample_fan] /\
    async_unload_entry sample_unload (sample_entry "stuck" "438" None)
      (hass_with "stuck" sample_fan) = (Ok false, kept) /\
    data_devices kept = {[ "stuck" := sample_fan ]} /\
    map call_event (calls kept) =
      [ForwardEntryUnload "stuck" "fan"; ForwardEntryUnload "stuck" "sensor"].
Proof.
  destruct (unload_all_or_nothing sample_unload
              (sample_entry "fan" "438" None) sample_fan
              (hass_with "fan" sample_fan) eq_refl)
    as (done & Hdone & Hsuccess & _).
  destruct (Hsuccess eq_refl) as (_ & Hgone & Hcalls).
  destruct (unload_all_or_nothing sample_unload
              (sample_entry "stuck" "438" None) sample_fan
              (hass_with "stuck" sample_fan) eq_refl)
    as (kept & Hkept & _ & Hfailure).
  destruct (Hfailure eq_refl) as (Hsame & _ & Hcalls').
  exists done, kept.
  split; [exact Hdone |]. split; [exact Hgone |].
  split; [rewrite Hcalls; reflexivity |].
  split; [exact Hkept |]. split; [exact Hsame |].
  rewrite Hcalls'. reflexivity.
Defined.

Lemma discovery_created_once_witness :
  count_events is_new_discovery
    (calls (run_setups sample_get_device sample_connect sample_entries
              fresh_hass)) = 1 /\
  count_events is_listen_once_stop
    (calls (run_setups sample_get_device sample_connect sample_entries
              fresh_hass)) = 1 /\
  map call_event
    (new_calls
       (run_setups sample_get_device sample_connect
          [sample_entry "fan" "438" (Some "192.168.1.20")] fresh_hass)
       (run_setups sample_get_device sample_connect
          [sample_entry "fan" "438" (Some "192.168.1.20");
           sample_entry "robot" "N223" None] fresh_hass)) =
    [NewDiscovery 0; StartDiscovery 0; ListenOnceStop 0;
     RegisterDevice 0 sample_vacuum
       (SetupEntryCallback (sample_entry "robot" "N223" None) sample_vacuum)].
Proof.
  destruct (discovery_created_once sample_get_device sample_connect
              fresh_hass sample_entries)
    as (Hnew & Hstop & _ & _ & Hfirst).
  split; [exact Hnew |]. split; [exact Hstop |].
  pose proof (Hfirst [sample_entry "fan" "438" (Some "192.168.1.20")]
                (sample_entry "robot" "N223" None)
                [sample_entry "spare" "438" (Some "")]
                eq_refl eq_refl eq_refl) as Hcalls.
  cbn [app] in Hcalls.
  change (snd (async_setup fresh_hass)) with fresh_hass in Hcalls.
  rewrite Hcalls. reflexivity.
Defined.

(** ** Further properties of the lifecycle *)

Section MoreLifecycleProperties.

Variable get_device : string -> string -> string -> DysonDevice.
Variable connect : DysonDevice -> string -> result unit.
Variable async_forward_entry_unload : ConfigEntry -> string -> bool.

(** [setup_entry], case by case on what [connect] did. *)
Lemma setup_entry_cases (entry : ConfigEntry) (device : DysonDevice)
    (host : string) (is_discovery : bool) (hass : HomeAssistant) :
  setup_entry connect entry device host is_discovery hass =
    match connect device host with
    | Ok _ =>
        (Ok tt,
         {| data_devices := <[entry_id entry := device]> (data_devices hass);
            data_discovery := data_discovery hass;
            next_object := next_object hass;
            calls :=
              calls hass ++
              logged (Connect device host) (data_devices hass) ::
              map (fun component =>
                     logged (ForwardEntrySetup (entry_id entry) component)
                       (<[entry_id entry := device]> (data_devices hass)))
                (_async_get_platform device) |})
    | Raise DysonException =>
        if is_discovery
        then (Ok tt,
              add_calls [logged (Connect device host) (data_devices hass);
                         logged (LogError (serial device) host)
                           (data_devices hass)] hass)
        else (Raise ConfigEntryNotReady,
              add_calls [logged (Connect device host) (data_devices hass)]
                hass)
    | Raise e =>
        (Raise e,
         add_calls [logged (Connect device host) (data_devices hass)] hass)
    end.
Proof.
  destruct (connect device host) as [[] | e] eqn:Hconnect.
  - by apply setup_entry_connected.
  - destruct (decide (e = DysonException)) as [-> | Hother].
    + by apply setup_entry_failed.
    + unfold setup_entry, device_connect, returned, mbind, M_bind, bind.
      cbn. rewrite Hconnect. by destruct e.
Qed.


(** X2. An exception of [connect] other than [DysonException] is not
    handled: in either mode [setup_entry] raises it as it is, after the
    connect and nothing else; the mapping is as it was, no error is logged
    and nothing is forwarded. *)
Theorem setup_entry_other_exception (entry : ConfigEntry)
    (device : DysonDevice) (host : string) (is_discovery : bool)
    (e : exn) (hass : HomeAssistant) :
  connect device host = Raise e ->
  e <> DysonException ->
  exists hass',
    setup_entry connect entry device host is_discovery hass =
      (Raise e, hass') /\
    data_devices hass' = data_devices hass /\
    new_calls hass hass' =
      [logged (Connect device host) (data_devices hass)].
Proof.
  intros Hconnect Hother. eexists. split.
  { rewrite setup_entry_cases, Hconnect.
    destruct e; [reflexivity | congruence | reflexivity | reflexivity]. }
  split; [reflexivity |]. apply new_calls_add_calls.
Qed.

(** What one [async_setup_entry] does to the mapping: nothing, or, on the
    direct branch after a successful connect, the store. *)
Lemma setup_devices_step (entry : ConfigEntry) (hass : HomeAssistant) :
  data_devices (snd (async_setup_entry get_device connect entry hass)) =
    data_devices hass \/
  exists host,
    truthy_host (conf_host (data entry)) = Some host /\
    connect (entry_device get_device entry) host = Ok tt /\
    data_devices (snd (async_setup_entry get_device connect entry hass)) =
      <[entry_id entry := entry_device get_device entry]> (data_devices hass).
Proof.
  destruct (truthy_host (conf_host (data entry))) as [host |] eqn:Hhost.
  - rewrite (setup_hosted get_device connect entry host hass Hhost).
    rewrite setup_entry_cases.
    destruct (connect (entry_device get_device entry) host) as [[] | e]
      eqn:Hconnect.
    + right. exists host. by repeat split.
    + left. by destruct e.
  - left.
    assert (Hless : host_less entry = true) by (unfold host_less; by rewrite Hhost).
    destruct (data_discovery hass) as [discovery |] eqn:Hstored.
    + by rewrite (setup_hostless_later get_device connect entry hass
                    discovery Hless Hstored).
    + by rewrite (setup_hostless_first get_device connect entry hass
                    Hless Hstored).
Qed.

(** X3. Setting up one entry, however it ends, leaves the devices of all
    other entries where they were. *)
Theorem setup_keeps_other_entries (entry : ConfigEntry)
    (hass : HomeAssistant) (other : string) :
  other <> entry_id entry ->
  data_devices (snd (async_setup_entry get_device connect entry hass))
    !! other = data_devices hass !! other.
Proof.
  intros Hother.
  destruct (setup_devices_step entry hass) as [-> | (host & _ & _ & ->)];
    [reflexivity |].
  by apply lookup_insert_ne.
Qed.

(** [async_unload_entry], case by case. *)
Lemma async_unload_entry_cases (entry : ConfigEntry) (hass : HomeAssistant) :
  async_unload_entry async_forward_entry_unload entry hass =
    match data_devices hass !! entry_id entry with
    | None => (Raise (KeyError (entry_id entry)), hass)
    | Some device =>
        if forallb (async_forward_entry_unload entry)
             (_async_get_platform device)
        then (Ok true,
              {| data_devices := delete (entry_id entry) (data_devices hass);
                 data_discovery := data_discovery hass;
                 next_object := next_object hass;
                 calls :=
                   calls hass ++
                   map (fun component =>
                          logged (ForwardEntryUnload (entry_id entry) component)
                            (data_devices hass))
                     (_async_get_platform device) ++
                   [logged (Disconnect device)
                      (delete (entry_id entry) (data_devices hass))] |})
        else (Ok false,
              add_calls
                (map (fun component =>
                        logged (ForwardEntryUnload (entry_id entry) component)
                          (data_devices hass))
                   (_async_get_platform device)) hass)
    end.
Proof.
  destruct (data_devices hass !! entry_id entry) as [device |] eqn:Hlookup.
  - pose proof (gather_unload async_forward_entry_unload entry
                  (_async_get_platform device) hass) as Hgather.
    unfold async_unload_entry, mbind, M_bind, bind, get_device_item in *.
    rewrite Hlookup, Hgather, all_map.
    destruct (forallb (async_forward_entry_unload entry)
                (_async_get_platform device)); [| reflexivity].
    unfold pop_device_item. cbn. rewrite Hlookup.
    cbn. unfold add_calls. cbn. by rewrite <- app_assoc.
  - unfold async_unload_entry, mbind, M_bind, bind, get_device_item.
    by rewrite Hlookup.
Qed.

(** X4. Unloading one entry, however it ends, leaves the devices of all
    other entries where they were and never touches the discovery service:
    the stored discovery object stays, and the only calls made are platform
    unloads and, at most, the disconnect. *)
Theorem unload_touches_only_its_entry (entry : ConfigEntry)
    (hass : HomeAssistant) :
  (forall other,
     other <> entry_id entry ->
     data_devices
       (snd (async_unload_entry async_forward_entry_unload entry hass))
       !! other = data_devices hass !! other) /\
  data_discovery
    (snd (async_unload_entry async_forward_entry_unload entry hass)) =
    data_discovery hass /\
  Forall (fun c =>
            is_forward_entry_unload (call_event c) || is_disconnect (call_event c)
              = true)
    (new_calls hass
       (snd (async_unload_entry async_forward_entry_unload entry hass))).
Proof.
  rewrite async_unload_entry_cases.
  destruct (data_devices hass !! entry_id entry) as [device |].
  - destruct (forallb (async_forward_entry_unload entry)
                (_async_get_platform device)).
    + cbn. split; [intros other Hother; by apply lookup_delete_ne |].
      split; [reflexivity |].
      unfold new_calls. cbn. rewrite drop_app_length.
      apply Forall_app. split; [| by repeat constructor].
      apply Forall_map, Forall_forall. by intros.
    + cbn. split; [reflexivity |]. split; [reflexivity |].
      rewrite new_calls_add_calls.
      apply Forall_map, Forall_forall. by intros.
  - cbn. split; [reflexivity |]. split; [reflexivity |].
    unfold new_calls. rewrite drop_all. constructor.
Qed.

(** X5. Set up with a reachable host and then unloaded with every platform
    unloading, an entry that was not in the mapping leaves the mapping as
    it found it; the platforms unloaded are the ones forwarded to, in the
    same order, and the device disconnected is the one connected. *)
Theorem setup_unload_round_trip (entry : ConfigEntry) (host : string)
    (hass : HomeAssistant) :
  data_devices hass !! entry_id entry = None ->
  truthy_host (conf_host (data entry)) = Some host ->
  connect (entry_device get_device entry) host = Ok tt ->
  forallb (async_forward_entry_unload entry)
    (_async_get_platform (entry_device get_device entry)) = true ->
  exists hass1 hass2,
    async_setup_entry get_device connect entry hass = (Ok true, hass1) /\
    async_unload_entry async_forward_entry_unload entry hass1 =
      (Ok true, hass2) /\
    data_devices hass2 = data_devices hass /\
    map call_event (new_calls hass hass2) =
      Connect (entry_device get_device entry) host ::
      map (ForwardEntrySetup (entry_id entry))
        (_async_get_platform (entry_device get_device entry)) ++
      map (ForwardEntryUnload (entry_id entry))
        (_async_get_platform (entry_device get_device entry)) ++
      [Disconnect (entry_device get_device entry)].
Proof.
  intros Habsent Hhost Hconnect Hunload.
  eexists. eexists. split.
  { rewrite (setup_hosted get_device connect entry host hass Hhost).
    by rewrite setup_entry_cases, Hconnect. }
  split.
  { rewrite async_unload_entry_cases. cbn.
    rewrite lookup_insert_eq, Hunload. reflexivity. }
  cbn. split.
  { by rewrite delete_insert_eq, delete_id. }
  unfold new_calls. cbn. rewrite <- app_assoc, drop_app_length.
  cbn. f_equal. rewrite !map_app, !map_map. reflexivity.
Qed.

(** X6. Unloading does not reach the discovery service.  For a host-less
    entry that discovery has not found yet, unloading raises [KeyError] and
    changes nothing, and the registered callback, called afterwards with a
    reachable host, still stores the device and forwards the entry to its
    platforms. *)
Theorem late_discovery_after_unload (entry : ConfigEntry) (host : string)
    (hass : HomeAssistant) :
  host_less entry = true ->
  data_devices hass !! entry_id entry = None ->
  connect (entry_device get_device entry) host = Ok tt ->
  exists hass1 hass2,
    async_setup_entry get_device connect entry hass = (Ok true, hass1) /\
    async_unload_entry async_forward_entry_unload entry hass1 =
      (Raise (KeyError (entry_id entry)), hass1) /\
    invoke connect
      (SetupEntryCallback entry (entry_device get_device entry)) host hass1 =
      (Ok tt, hass2) /\
    data_devices hass2 !! entry_id entry =
      Some (entry_device get_device entry) /\
    map call_event (new_calls hass1 hass2) =
      Connect (entry_device get_device entry) host ::
      map (ForwardEntrySetup (entry_id entry))
        (_async_get_platform (entry_device get_device entry)).
Proof.
  intros Hless Habsent Hconnect.
  assert (Hsetup : exists hass1,
    async_setup_entry get_device connect entry hass = (Ok true, hass1) /\
    data_devices hass1 = data_devices hass).
  { destruct (data_discovery hass) as [discovery |] eqn:Hstored.
    - eexists. split; [by apply setup_hostless_later |]. reflexivity.
    - eexists. split; [by apply setup_hostless_first |]. reflexivity. }
  destruct Hsetup as (hass1 & Hsetup & Hsame).
  exists hass1. eexists. split; [exact Hsetup |]. split.
  { rewrite async_unload_entry_cases, Hsame, Habsent. reflexivity. }
  split.
  { unfold invoke. cbn. by rewrite setup_entry_cases, Hconnect. }
  cbn. split; [apply lookup_insert_eq |].
  unfold new_calls. cbn. rewrite drop_app_length. cbn.
  f_equal. by rewrite map_map.
Qed.


(** X8. After any sequence of setups, a device found in the mapping was
    either there before, under the same identifier, or is the device of an
    entry of the sequence with that identifier, which has a host on which
    [connect] succeeded: a device that did not connect is never stored. *)
Theorem mapping_holds_connected_devices (entries : list ConfigEntry)
    (hass : HomeAssistant) (key : string) (device : DysonDevice) :
  data_devices (run_setups get_device connect entries hass) !! key =
    Some device ->
  data_devices hass !! key = Some device \/
  exists entry host,
    In entry entries /\
    entry_id entry = key /\
    entry_device get_device entry = device /\
    truthy_host (conf_host (data entry)) = Some host /\
    connect device host = Ok tt.
Proof.
  revert hass. induction entries as [| entry entries IH]; intros hass Hfound;
    [by left |].
  cbn in Hfound. destruct (IH _ Hfound) as [Hstep | Hlater].
  - destruct (setup_devices_step entry hass)
      as [Hsame | (host & Hhost & Hconnect & Hstored)].
    + left. by rewrite <- Hsame.
    + rewrite Hstored in Hstep.
      destruct (decide (entry_id entry = key)) as [Hkey | Hkey].
      * right. exists entry, host.
        rewrite <- Hkey, lookup_insert_eq in Hstep.
        injection Hstep as Hdevice. rewrite <- Hdevice.
        repeat split; [by left | exact Hkey | exact Hhost | exact Hconnect].
      * left. by rewrite lookup_insert_ne in Hstep.
  - right. destruct Hlater as (later & host & Hin & Hrest).
    exists later, host. split; [by right | exact Hrest].
Qed.

Lemma registrations_quiet (cs : list Call) :
  quiet cs -> registrations cs = [].
Proof.
  unfold quiet, registrations.
  induction 1 as [| c cs Hc _ IH]; [reflexivity |].
  cbn. rewrite IH. by destruct (call_event c).
Qed.

Lemma run_setups_registrations (entries : list ConfigEntry)
    (hass : HomeAssistant) :
  exists cs,
    calls (run_setups get_device connect entries hass) = calls hass ++ cs /\
    registrations cs =
      map (fun entry =>
             SetupEntryCallback entry (entry_device get_device entry))
        (List.filter host_less entries).
Proof.
  revert hass. induction entries as [| entry entries IH]; intros hass.
  - exists []. split; [by rewrite app_nil_r | reflexivity].
  - cbn [run_setups List.filter].
    destruct (IH (snd (async_setup_entry get_device connect entry hass)))
      as (cs & Hcalls & Hregistered).
    rewrite Hcalls.
    destruct (host_less entry) eqn:Hless.
    + destruct (data_discovery hass) as [discovery |] eqn:Hstored.
      * rewrite (setup_hostless_later get_device connect entry hass
                   discovery Hless Hstored).
        eexists. split; [cbn; by rewrite <- app_assoc |].
        unfold registrations in *. rewrite omap_app, Hregistered.
        reflexivity.
      * rewrite (setup_hostless_first get_device connect entry hass
                   Hless Hstored).
        eexists. split; [cbn; by rewrite <- app_assoc |].
        unfold registrations in *. rewrite omap_app, Hregistered.
        reflexivity.
    + destruct (setup_hosted_quiet get_device connect entry hass Hless)
        as (cs' & _ & _ & Hmore & Hquiet).
      rewrite Hmore. exists (cs' ++ cs).
      split; [by rewrite <- app_assoc |].
      pose proof (registrations_quiet cs' Hquiet) as Hnone.
      unfold registrations in *. by rewrite omap_app, Hnone, Hregistered.
Qed.

(** X9. Over any sequence of setups, the callbacks handed to the discovery
    service are those of the host-less entries, one for each setup, in the
    order of the setups; an entry with a host is never registered. *)
Theorem registrations_follow_hostless_entries (entries : list ConfigEntry)
    (hass : HomeAssistant) :
  registrations
    (new_calls hass (run_setups get_device connect entries hass)) =
    map (fun entry => SetupEntryCallback entry (entry_device get_device entry))
      (List.filter host_less entries).
Proof.
  destruct (run_setups_registrations entries hass)
    as (cs & Hcalls & Hregistered).
  unfold new_calls. by rewrite Hcalls, drop_app_length.
Qed.

(** X10. [async_setup] returns [True] and starts from nothing: whatever was
    stored before, no entry can be unloaded after it, and the next host-less
    setup constructs a discovery object of its own, with its own stop
    hook. *)
Theorem async_setup_forgets (hass : HomeAssistant) (entry : ConfigEntry) :
  fst (async_setup hass) = true /\
  async_unload_entry async_forward_entry_unload entry (snd (async_setup hass)) =
    (Raise (KeyError (entry_id entry)), snd (async_setup hass)) /\
  (host_less entry = true ->
   map call_event
     (new_calls (snd (async_setup hass))
        (snd (async_setup_entry get_device connect entry
                (snd (async_setup hass))))) =
     [NewDiscovery (next_object hass);
      StartDiscovery (next_object hass);
      ListenOnceStop (next_object hass);
      RegisterDevice (next_object hass) (entry_device get_device entry)
        (SetupEntryCallback entry (entry_device get_device entry))]).
Proof.
  split; [reflexivity |]. split.
  - rewrite async_unload_entry_cases. cbn. by rewrite lookup_empty.
  - intros Hless.
    rewrite (setup_hostless_first get_device connect entry
               (snd (async_setup hass)) Hless eq_refl).
    unfold new_calls. cbn. by rewrite drop_app_length.
Qed.

End MoreLifecycleProperties.

(** ** Further properties of the entity base class *)


(** A run of messages logs one refresh per message that passes the filter
    and changes nothing else. *)
Lemma on_messages_run (self : DysonEntity) (message_types : list MessageType)
    (hass : HomeAssistant) :
  on_messages self message_types hass =
    (Ok tt,
     add_calls
       (map (fun _ => logged (ScheduleUpdateHaState self) (data_devices hass))
          (List.filter
             (fun message_type =>
                match _MESSAGE_TYPE self with
                | None => true
                | Some filter => bool_decide (message_type = filter)
                end) message_types))
       hass).
Proof.
  assert (Hstep : forall message_type h,
    _on_message self message_type h =
      (Ok tt,
       if match _MESSAGE_TYPE self with
          | None => true
          | Some filter => bool_decide (message_type = filter)
          end
       then add_calls [logged (ScheduleUpdateHaState self) (data_devices h)] h
       else h)).
  { intros message_type h. unfold _on_message.
    destruct (_MESSAGE_TYPE self) as [filter |]; [| reflexivity].
    destruct (decide (message_type = filter)) as [Heq | Hne].
    - by rewrite (bool_decide_eq_true_2 _ Heq).
    - by rewrite (bool_decide_eq_false_2 _ Hne). }
  unfold on_messages. revert hass.
  induction message_types as [| message_type rest IH]; intros hass.
  - cbn. by rewrite add_calls_nil.
  - cbn [for_each List.filter]. unfold mbind, M_bind, bind.
    rewrite Hstep.
    destruct (match _MESSAGE_TYPE self with
              | None => true
              | Some filter => bool_decide (message_type = filter)
              end).
    + rewrite IH. cbn. by rewrite add_calls_add_calls.
    + apply IH.
Qed.

(** X12. Over any run of messages, an entity without a filter requests as
    many refreshes as there are messages, and an entity with a filter as
    many as there are messages of the filter's type; the listener never
    raises and never touches the device mapping. *)
Theorem on_messages_refresh_count (self : DysonEntity)
    (message_types : list MessageType) (hass : HomeAssistant) :
  fst (on_messages self message_types hass) = Ok tt /\
  data_devices (snd (on_messages self message_types hass)) =
    data_devices hass /\
  (_MESSAGE_TYPE self = None ->
   count_events is_schedule_update
     (new_calls hass (snd (on_messages self message_types hass))) =
     length message_types) /\
  (forall filter,
     _MESSAGE_TYPE self = Some filter ->
     count_events is_schedule_update
       (new_calls hass (snd (on_messages self message_types hass))) =
       length (List.filter
                 (fun message_type => bool_decide (message_type = filter))
                 message_types)).
Proof.
  rewrite on_messages_run. cbn [fst snd]. rewrite new_calls_add_calls.
  split; [reflexivity |]. split; [reflexivity |].
  assert (Hcount : forall (xs : list MessageType),
    count_events is_schedule_update
      (map (fun _ => logged (ScheduleUpdateHaState self) (data_devices hass))
         xs) = length xs).
  { intros xs. unfold count_events.
    induction xs as [| x xs IH]; [reflexivity |]. cbn. by rewrite IH. }
  rewrite Hcount. split.
  - intros ->. f_equal.
    induction message_types as [| m ms IH]; [reflexivity |].
    cbn. by rewrite IH.
  - intros filter ->. reflexivity.
Qed.

(** ** The further properties on the sample installation *)

Lemma setup_entry_other_exception_witness :
  exists hass',
    setup_entry broken_connect (sample_entry "fan" "438" None) sample_fan
      "192.168.1.20" true fresh_hass = (Raise OtherException, hass') /\
    data_devices hass' = ∅ /\
    map call_event (calls hass') = [Connect sample_fan "192.168.1.20"].
Proof.
  destruct (setup_entry_other_exception broken_connect
              (sample_entry "fan" "438" None) sample_fan "192.168.1.20" true
              OtherException fresh_hass eq_refl)
    as (hass' & Hrun & Hdevices & Hcalls); [discriminate |].
  exists hass'. split; [exact Hrun |]. split; [exact Hdevices |].
  change (calls hass') with (new_calls fresh_hass hass').
  rewrite Hcalls. reflexivity.
Defined.

Lemma setup_keeps_other_entries_witness :
  data_devices
    (snd (async_setup_entry sample_get_device sample_connect
            (sample_entry "fan" "438" (Some "192.168.1.20"))
            (hass_with "robot" sample_vacuum))) !! "robot" =
    Some sample_vacuum.
Proof.
  rewrite (setup_keeps_other_entries sample_get_device sample_connect
             (sample_entry "fan" "438" (Some "192.168.1.20"))
             (hass_with "robot" sample_vacuum) "robot");
    [reflexivity | discriminate].
Defined.

Lemma unload_touches_only_its_entry_witness :
  data_devices
    (snd (async_unload_entry sample_unload
            (sample_entry "fan" "438" (Some "192.168.1.20"))
            (snd (async_setup_entry sample_get_device sample_connect
                    (sample_entry "fan" "438" (Some "192.168.1.20"))
                    (hass_with "robot" sample_vacuum))))) !! "robot" =
    Some sample_vacuum.
Proof.
  rewrite (proj1 (unload_touches_only_its_entry sample_unload
                    (sample_entry "fan" "438" (Some "192.168.1.20"))
                    (snd (async_setup_entry sample_get_device sample_connect
                            (sample_entry "fan" "438" (Some "192.168.1.20"))
                            (hass_with "robot" sample_vacuum))))
             "robot");
    [reflexivity | discriminate].
Defined.

Lemma setup_unload_round_trip_witness :
  exists hass1 hass2,
    async_setup_entry sample_get_device sample_connect
      (sample_entry "fan" "438" (Some "192.168.1.20")) fresh_hass =
      (Ok true, hass1) /\
    async_unload_entry sample_unload
      (sample_entry "fan" "438" (Some "192.168.1.20")) hass1 =
      (Ok true, hass2) /\
    data_devices hass2 = ∅ /\
    map call_event (calls hass2) =
      [Connect sample_fan "192.168.1.20";
       ForwardEntrySetup "fan" "fan"; ForwardEntrySetup "fan" "sensor";
       ForwardEntryUnload "fan" "fan"; ForwardEntryUnload "fan" "sensor";
       Disconnect sample_fan].
Proof.
  destruct (setup_unload_round_trip sample_get_device sample_connect
              sample_unload (sample_entry "fan" "438" (Some "192.168.1.20"))
              "192.168.1.20" fresh_hass eq_refl eq_refl eq_refl eq_refl)
    as (hass1 & hass2 & Hsetup & Hunload & Hdevices & Hcalls).
  exists hass1, hass2.
  split; [exact Hsetup |]. split; [exact Hunload |].
  split; [exact Hdevices |].
  change (calls hass2) with (new_calls fresh_hass hass2).
  rewrite Hcalls. reflexivity.
Defined.

Lemma late_discovery_after_unload_witness :
  exists hass1 hass2,
    async_unload_entry sample_unload (sample_entry "robot" "N223" None) hass1 =
      (Raise (KeyError "robot"), hass1) /\
    invoke sample_connect
      (SetupEntryCallback (sample_entry "robot" "N223" None) sample_vacuum)
      "192.168.1.20" hass1 = (Ok tt, hass2) /\
    data_devices hass2 !! "robot" = Some sample_vacuum.
Proof.
  destruct (late_discovery_after_unload sample_get_device sample_connect
              sample_unload (sample_entry "robot" "N223" None)
              "192.168.1.20" fresh_hass eq_refl eq_refl eq_refl)
    as (hass1 & hass2 & _ & Hunload & Hinvoke & Hstored & _).
  exists hass1, hass2.
  split; [exact Hunload |]. split; [exact Hinvoke | exact Hstored].
Defined.


Lemma mapping_holds_connected_devices_witness :
  data_devices fresh_hass !! "fan" = Some sample_fan \/
  exists entry host,
    In entry sample_entries /\
    entry_id entry = "fan" /\
    entry_device sample_get_device entry = sample_fan /\
    truthy_host (conf_host (data entry)) = Some host /\
    sample_connect sample_fan host = Ok tt.
Proof.
  apply (mapping_holds_connected_devices sample_get_device sample_connect
           sample_entries fresh_hass "fan" sample_fan).
  reflexivity.
Defined.

Lemma async_setup_forgets_witness :
  map call_event
    (new_calls (snd (async_setup (hass_with "fan" sample_fan)))
       (snd (async_setup_entry sample_get_device sample_connect
               (sample_entry "robot" "N223" None)
               (snd (async_setup (hass_with "fan" sample_fan)))))) =
    [NewDiscovery 0; StartDiscovery 0; ListenOnceStop 0;
     RegisterDevice 0 sample_vacuum
       (SetupEntryCallback (sample_entry "robot" "N223" None) sample_vacuum)].
Proof.
  apply (proj2 (proj2 (async_setup_forgets sample_get_device sample_connect
                         sample_unload (hass_with "fan" sample_fan)
                         (sample_entry "robot" "N223" None)))).
  reflexivity.
Defined.

Lemma on_messages_refresh_count_witness :
  count_events is_schedule_update
    (calls (snd (on_messages plain_entity [STATE; ENVIRONMENTAL; STATE]
                   fresh_hass))) = 3 /\
  count_events is_schedule_update
    (calls (snd (on_messages humidity_entity [STATE; ENVIRONMENTAL; STATE]
                   fresh_hass))) = 1.
Proof.
  split.
  - apply (proj1 (proj2 (proj2 (on_messages_refresh_count plain_entity
                                  [STATE; ENVIRONMENTAL; STATE] fresh_hass)))).
    reflexivity.
  - apply (proj2 (proj2 (proj2 (on_messages_refresh_count humidity_entity
                                  [STATE; ENVIRONMENTAL; STATE] fresh_hass)))
             ENVIRONMENTAL).
    reflexivity.
Defined.
